(** * VectorWise: the serving layer, the build script and the index core

    The repository is a thin FastAPI service ([api/main.py]) and a build
    script ([generate_data.py]) around the native Faiss library.  The
    service and the script are embedded from the source.  The library they
    call is taken as an interface ([FaissLibrary]); an exhaustive flat index
    inhabits it so that every statement can be run on concrete data.  The
    graph builder the specification describes (section 4.2) is modelled
    from the specification in [Module HNSW]. *)

From Stdlib Require Import ZArith QArith Lia.
From stdpp Require Import base option list strings gmap pretty sorting.

Local Open Scope Z_scope.

(** * The Faiss library, as the Python code sees it *)

Module Faiss.

(** A Python exception raised by a library call: [str(e)] is [exn_msg]. *)
Record Exception := PyException { exn_type : string; exn_msg : string }.

(** The attribute block [index.hnsw].  [M] is the construction argument of
    [faiss.IndexHNSWFlat(d, M)]; [max_level] is the highest layer of the
    built graph. *)
Record HNSWParams := mkHNSWParams {
  M : Z;
  efConstruction : Z;
  efSearch : Z;
  max_level : Z
}.

(** An index object: the attributes the Python code reads, and the native
    state behind them.  [hnsw = None] is [hasattr(index, 'hnsw') = False]. *)
Record Index (storage : Type) := mkIndex {
  type_name : string;
  d : Z;
  ntotal : Z;
  hnsw : option HNSWParams;
  native : storage
}.
Arguments mkIndex {storage} _ _ _ _ _.
Arguments type_name {storage} _.
Arguments d {storage} _.
Arguments ntotal {storage} _.
Arguments hnsw {storage} _.
Arguments native {storage} _.

(** [index.hnsw.efSearch = v] *)
Definition set_efSearch {storage} (v : Z) (index : Index storage) : Index storage :=
  mkIndex (type_name index) (d index) (ntotal index)
    ((λ h, mkHNSWParams (M h) (efConstruction h) v (max_level h)) <$> hnsw index)
    (native index).

(** [index.hnsw.efConstruction = v] *)
Definition set_efConstruction {storage} (v : Z) (index : Index storage) : Index storage :=
  mkIndex (type_name index) (d index) (ntotal index)
    ((λ h, mkHNSWParams (M h) v (efSearch h) (max_level h)) <$> hnsw index)
    (native index).

(** What the repository calls in the library.  Matrices are lists of rows. *)
Class FaissLibrary := {
  (** a Python float, as JSON carries it *)
  float : Type;
  (** a numpy float32 *)
  float32 : Type;
  (** [np.array(.., dtype='float32')] on one component *)
  as_float32 : float → float32;
  (** [ndarray.tolist()] on one component *)
  to_float : float32 → float;
  (** the row operation of [faiss.normalize_L2] *)
  fvec_renorm_L2 : list float32 → list float32;
  (** native state of an index, its serialized form *)
  storage : Type;
  artifact : Type;
  (** [faiss.read_index] on the bytes of the file *)
  read_index : artifact → Exception + Index storage;
  (** [faiss.write_index] *)
  write_index : Index storage → artifact;
  (** [faiss.IndexHNSWFlat(d, M)] *)
  IndexHNSWFlat : Z → Z → Index storage;
  (** [index.add(x)] *)
  index_add : Index storage → list (list float32) → Exception + Index storage;
  (** [index.search(x, k)]: distances and labels, one row per query *)
  index_search : Index storage → list (list float32) → Z →
                 Exception + (list (list float32) * list (list Z))
}.

(** [faiss.normalize_L2(x)]: every row of the matrix is renormalised. *)
Definition normalize_L2 `{FaissLibrary} (x : list (list float32)) : list (list float32) :=
  fvec_renorm_L2 <$> x.

(** The library's documented result shape: [search(x, k)] on a one-row
    matrix fills one row of exactly [k] distances and one row of exactly [k]
    labels (a label is [-1] where the index has no further result). *)
Definition search_shape `{FaissLibrary} : Prop :=
  ∀ index q k Ds Is,
    index_search index [q] k = inr (Ds, Is) →
    ∃ drow irow, Ds = [drow] ∧ Is = [irow] ∧
                 length drow = Z.to_nat k ∧ length irow = Z.to_nat k.

End Faiss.

Import Faiss.

(** * Library calls with a log: the effect of the Python code

    A computation makes library calls, recorded in order in [calls], and
    ends in an error of type [E] or in a value. *)

Section Effects.
Context `{FaissLibrary}.

Inductive FaissCall :=
| CallNormalizeL2 (x : list (list float32))
| CallAdd (index : Index storage) (x : list (list float32))
| CallSearch (index : Index storage) (x : list (list float32)) (k : Z).

Record Eff (E A : Type) := mkEff { calls : list FaissCall; outcome : E + A }.
Arguments mkEff {E A} _ _.
Arguments calls {E A} _.
Arguments outcome {E A} _.

Definition raise {E A} (e : E) : Eff E A := mkEff [] (inl e).

#[export] Instance Eff_ret {E} : MRet (Eff E) := λ A a, mkEff [] (inr a).
#[export] Instance Eff_bind {E} : MBind (Eff E) := λ A B f m,
  match outcome m with
  | inl e => mkEff (calls m) (inl e)
  | inr a => mkEff (calls m ++ calls (f a)) (outcome (f a))
  end.

(** [try: m except Exception as e: h e] *)
Definition try_except {E E' A} (m : Eff E A) (h : E → Eff E' A) : Eff E' A :=
  match outcome m with
  | inl e => mkEff (calls m ++ calls (h e)) (outcome (h e))
  | inr a => mkEff (calls m) (inr a)
  end.

(** A library call that may raise. *)
Definition call {A} (c : FaissCall) (r : Exception + A) : Eff Exception A :=
  mkEff [c] r.

(** [a[i]] on a Python sequence *)
Definition getitem {A} (a : list A) (i : nat) : Eff Exception A :=
  match a !! i with
  | Some x => mret x
  | None => raise (PyException "IndexError" "index out of bounds")
  end.

End Effects.

Arguments mkEff {_ E A} _ _.
Arguments calls {_ E A} _.
Arguments outcome {_ E A} _.

(** * The service: [api/main.py] *)

Module Service.

(** JSON values of the dictionaries the handlers return. *)
Inductive JSON := JInt (z : Z) | JStr (s : string).

Section Handlers.
Context `{FaissLibrary}.

Definition DIM : Z := 128.

(** The global [index]: [None] until [load_index] has run. *)
Definition State : Type := option (Index storage).

(** [class SearchRequest(BaseModel)] *)
Record SearchRequest := mkSearchRequest {
  query_vector : list float;
  k : Z
}.

(** [class SearchResult(BaseModel)] *)
Record SearchResult := mkSearchResult {
  indices : list Z;
  distances : list float
}.

Record HTTPException := mkHTTPException { status_code : Z; detail : string }.

(** The constraint [Field(..., gt=0, le=100)] on [k]. *)
Definition k_valid (k : Z) : bool := (0 <? k) && (k <=? 100).

(** Construction of a [SearchRequest] from the parsed request body;
    [None] is pydantic's validation error. *)
Definition parse_SearchRequest (query_vector : list float) (k : Z) : option SearchRequest :=
  if k_valid k then Some (mkSearchRequest query_vector k) else None.

(** [load_index]: the startup event.  On an exception the global keeps its
    value and the exception is raised again. *)
Definition load_index (file : artifact) (index : State) : State * (Exception + ()) :=
  match read_index file with
  | inl e => (index, inl e)
  | inr index' =>
      (Some (match hnsw index' with
             | Some _ => set_efSearch 64 index'
             | None => index'
             end), inr ())
  end.

(** [root]: the health check. *)
Definition root (index : State) : gmap string JSON :=
  {[ "service" := JStr "VectorWise";
     "status" := JStr "healthy";
     "vectors_indexed" := JInt (match index with
                                | Some index => ntotal index
                                | None => 0
                                end) ]}.

(** [np.array(request.query_vector, dtype='float32')]: the float32 row of
    a request. *)
Definition query_row (request : SearchRequest) : list float32 :=
  as_float32 <$> query_vector request.

(** The body of the [try] in [search]; [reshape(1, -1)] makes the row a
    one-row matrix, which [normalize_L2] rewrites in place. *)
Definition search_body (index : Index storage) (request : SearchRequest)
  : Eff Exception SearchResult :=
  let query := [query_row request] in
  query ← call (CallNormalizeL2 query) (inr (normalize_L2 query));
  '(distances, indices) ← call (CallSearch index query (k request))
                               (index_search index query (k request));
  indices0 ← getitem indices 0;
  distances0 ← getitem distances 0;
  mret (mkSearchResult indices0 (to_float <$> distances0)).

(** [search]: the k-NN handler. *)
Definition search (index : State) (request : SearchRequest)
  : Eff HTTPException SearchResult :=
  match index with
  | None => raise (mkHTTPException 503 "Index not loaded")
  | Some index =>
      if bool_decide (Z.of_nat (length (query_vector request)) ≠ DIM) then
        raise (mkHTTPException 400
                 ("Query vector must have dimension " +:+ pretty DIM +:+
                  ", got " +:+ pretty (length (query_vector request))))
      else
        try_except (search_body index request)
          (λ e, raise (mkHTTPException 500 ("Search failed: " +:+ exn_msg e)))
  end.

(** [get_stats] *)
Definition get_stats (index : State) : HTTPException + gmap string JSON :=
  match index with
  | None => inl (mkHTTPException 503 "Index not loaded")
  | Some index =>
      let stats : gmap string JSON :=
        {[ "total_vectors" := JInt (ntotal index);
           "dimension" := JInt DIM;
           "index_type" := JStr (type_name index) ]} in
      inr (match hnsw index with
           | Some h =>
               <["hnsw_efSearch" := JInt (efSearch h)]>
                 (<["hnsw_m" := JInt (max_level h)]> stats)
           | None => stats
           end)
  end.

(** ** The request/response boundary *)

Inductive Request :=
| GetRoot
| PostSearch (query_vector : list float) (k : Z)
| GetStats.

Inductive Response :=
| RespDict (body : gmap string JSON)
| RespSearch (body : SearchResult)
| RespError (e : HTTPException)
| RespValidationError.

(** The status line of a response; a request that fails validation is
    answered 422 by the framework and never reaches a handler. *)
Definition status_of (r : Response) : Z :=
  match r with
  | RespDict _ | RespSearch _ => 200
  | RespError e => status_code e
  | RespValidationError => 422
  end.

(** One request against the current state: the state afterwards, the
    library calls made, and the response.  No handler assigns the global
    or an attribute of the index. *)
Definition serve (index : State) (r : Request) : State * list FaissCall * Response :=
  match r with
  | GetRoot => (index, [], RespDict (root index))
  | PostSearch query_vector k =>
      match parse_SearchRequest query_vector k with
      | None => (index, [], RespValidationError)
      | Some request =>
          let r := search index request in
          (index, calls r,
           match outcome r with
           | inl e => RespError e
           | inr body => RespSearch body
           end)
      end
  | GetStats =>
      (index, [],
       match get_stats index with
       | inl e => RespError e
       | inr body => RespDict body
       end)
  end.

(** A sequence of requests, served in order. *)
Fixpoint run (index : State) (rs : list Request) : State * list Response :=
  match rs with
  | [] => (index, [])
  | r :: rs =>
      let '(index', _, resp) := serve index r in
      let '(index'', resps) := run index' rs in
      (index'', resp :: resps)
  end.

End Handlers.
End Service.

(** * The build script: [generate_data.py] *)

Module GenerateData.
Section Script.
Context `{FaissLibrary}.

Definition N_VECTORS : Z := 1000000.
Definition DIM : Z := 128.
Definition SEED : Z := 42.
Definition M : Z := 32.
Definition EF_CONSTRUCTION : Z := 200.

(** The script from the matrix [np.random.randn(N_VECTORS, DIM)] on:
    conversion to float32, normalisation in place, construction of the
    index, insertion, serialization.  It returns the index and the bytes
    written to [index.faiss]. *)
Definition build (randn : list (list float)) : Eff Exception (Index storage * artifact) :=
  let vectors := fmap (M:=list) (fmap (M:=list) as_float32) randn in
  vectors ← call (CallNormalizeL2 vectors) (inr (normalize_L2 vectors));
  let index := IndexHNSWFlat DIM M in
  let index := set_efConstruction EF_CONSTRUCTION index in
  index ← call (CallAdd index vectors) (index_add index vectors);
  mret (index, write_index index).

End Script.
End GenerateData.

(** * An exhaustive index: an inhabitant of the library interface

    [benchmark.py] builds [faiss.IndexFlatL2] as its ground truth: every
    stored vector is scored against the query and the [k] best are kept.
    Components are exact rationals here; a row of the result is filled to
    [k] entries with label [-1] and the largest float32 as distance. *)

Module FlatL2.

Local Open Scope Q_scope.

(** Squared Euclidean distance. *)
Fixpoint L2sqr (x y : list Q) : Q :=
  match x, y with
  | a :: x, b :: y => (a - b) * (a - b) + L2sqr x y
  | _, _ => 0
  end.

Definition norm_L2sqr (x : list Q) : Q := L2sqr x (replicate (length x) 0).

(** The square root of a positive rational [a/b], taken from below to the
    precision of a float32 mantissa: the integer root of [a * b * 4^24] over
    [b * 2^24].  Its square is at most [a/b] and falls short of it by a
    factor below [(1 + 2^-24)^2]. *)
Definition Qsqrt (q : Q) : Q :=
  let r := Qred q in
  Qmake (Z.sqrt (Qnum r * Zpos (Qden r) * 4 ^ 24)) (Qden r * 2 ^ 24)%positive.

(** One row of [normalize_L2]: every component is divided by the norm of
    the row when the squared norm is positive; a row of norm 0 is left as
    it is. *)
Definition renorm (x : list Q) : list Q :=
  if (0 <? Qnum (norm_L2sqr x))%Z
  then (λ a, Qred (a / Qsqrt (norm_L2sqr x))) <$> x
  else x.

Definition FLT_MAX : Q := 340282346638528859811704183484516925440.

(** Insertion of a scored label into a list sorted by ascending score;
    equal scores keep their order of arrival. *)
Fixpoint insert_scored (e : Q * Z) (l : list (Q * Z)) : list (Q * Z) :=
  match l with
  | [] => [e]
  | e' :: l' => if Qle_bool e'.1 e.1 then e' :: insert_scored e l' else e :: l
  end.

Definition sort_scored (l : list (Q * Z)) : list (Q * Z) :=
  foldr insert_scored [] (reverse l).

(** The [k] nearest stored vectors of one query, padded to [k] entries. *)
Definition knn_row (vs : list (list Q)) (q : list Q) (k : nat) : list Q * list Z :=
  let scored := imap (λ i v, (Qred (L2sqr q v), Z.of_nat i)) vs in
  let best := take k (sort_scored scored) in
  (best.*1 ++ replicate (k - length best) FLT_MAX,
   best.*2 ++ replicate (k - length best) (-1)%Z).

Definition rows_have_dim (d : Z) (x : list (list Q)) : bool :=
  forallb (λ r, bool_decide (Z.of_nat (length r) = d)) x.

(** [index.add(x)]: the rows are appended.  An [hnsw] block, when there
    is one, has layer 0 as its highest layer once a row is stored. *)
Definition add (index : Index (list (list Q))) (x : list (list Q))
  : Exception + Index (list (list Q)) :=
  if rows_have_dim (d index) x then
    inr (mkIndex (type_name index) (d index) (ntotal index + Z.of_nat (length x))%Z
           ((λ h, match x with
                  | [] => h
                  | _ => mkHNSWParams (M h) (efConstruction h) (efSearch h)
                           (Z.max (max_level h) 0)
                  end) <$> hnsw index)
           (native index ++ x))
  else inl (PyException "AssertionError" "").

Definition search (index : Index (list (list Q))) (x : list (list Q)) (k : Z)
  : Exception + (list (list Q) * list (list Z)) :=
  if rows_have_dim (d index) x && (0 <? k)%Z then
    let rows := (λ q, knn_row (native index) q (Z.to_nat k)) <$> x in
    inr (rows.*1, rows.*2)
  else inl (PyException "AssertionError" "").

(** The instance.  Serialization is the identity, and the constructor
    [IndexHNSWFlat] yields an index with the attribute block of an HNSW index
    whose vectors are stored and searched exhaustively all the same. *)
#[export] Instance library : FaissLibrary := {|
  float := Q;
  float32 := Q;
  as_float32 := id;
  to_float := id;
  fvec_renorm_L2 := renorm;
  storage := list (list Q);
  artifact := Index (list (list Q));
  read_index := inr;
  write_index := id;
  IndexHNSWFlat := λ d M,
    mkIndex "IndexHNSWFlat" d 0 (Some (mkHNSWParams M 40 16 (-1))) [];
  index_add := add;
  index_search := search
|}.

(** [faiss.IndexFlatL2(d)] *)
Definition IndexFlatL2 (d : Z) : Index (list (list Q)) :=
  mkIndex "IndexFlatL2" d 0 None [].

End FlatL2.



(** * The index core: vector store, layered graph and builder *)

Module HNSW.

Local Open Scope nat_scope.

(** Modelled from the spec: the failures of section 7 that the core raises. *)
Inductive Error := DimensionMismatch | InvalidArgument | NotFound.

(** Modelled from the spec: the vector store of section 4.1, which the
    repository leaves to the native library.  A vector is a sequence of
    components (exact rationals stand for the floating-point values); ids
    are the positions [0..N-1] in insertion order. *)
Definition Vector : Type := list Q.

Record VectorStore := mkStore { D : nat; vectors : list Vector }.

(** Modelled from the spec: [count] of section 4.1. *)
Definition count (s : VectorStore) : nat := length (vectors s).

(** Modelled from the spec: [get] of section 4.1, [NotFound] out of range. *)
Definition get (s : VectorStore) (id : nat) : Error + Vector :=
  match vectors s !! id with
  | Some v => inr v
  | None => inl NotFound
  end.

(** Modelled from the spec: [distance] of section 4.1, the squared
    Euclidean distance. *)
Definition distance (a b : Vector) : Q := Qred (FlatL2.L2sqr a b).

(** Strictly smaller, on distances. *)
Definition Qlt_bool (a b : Q) : bool := negb (Qle_bool b a).

(** Modelled from the spec: the distance from a vector to a stored id; an
    id out of range (an internal invariant violation, [NotFound]) counts as
    distance 0. *)
Definition dist_to (s : VectorStore) (q : Vector) (id : nat) : Q :=
  match get s id with
  | inr v => distance q v
  | inl _ => 0%Q
  end.

(** Modelled from the spec: a graph node of section 3, with its highest
    layer and one neighbor list per layer [0..maxLayer]. *)
Record GraphNode := mkNode { maxLayer : nat; neighbors : list (list nat) }.

(** Modelled from the spec: the layered graph of section 3; the top layer
    is the highest layer of the entry point. *)
Record HNSWGraph := mkGraph { nodes : list GraphNode; entryPoint : option nat }.

(** Modelled from the spec: the topmost non-empty layer, that of the entry
    point. *)
Definition topLayer (g : HNSWGraph) : nat :=
  match entryPoint g with
  | Some ep => default 0 (maxLayer <$> nodes g !! ep)
  | None => 0
  end.

(** Modelled from the spec: the neighbor list of [id] at layer [l]. *)
Definition neighbors_at (g : HNSWGraph) (id l : nat) : list nat :=
  default [] (node ← nodes g !! id; neighbors node !! l).

(** Modelled from the spec: replacement of the neighbor list of [id] at
    layer [l]. *)
Definition set_neighbors (g : HNSWGraph) (id l : nat) (ns : list nat) : HNSWGraph :=
  match nodes g !! id with
  | Some node =>
      mkGraph (<[id := mkNode (maxLayer node) (<[l := ns]> (neighbors node))]> (nodes g))
              (entryPoint g)
  | None => g
  end.

(** Modelled from the spec: the build parameters of section 3, [M] and the
    candidate-list width of construction. *)
Record Params := mkParams { M : nat; efConstruction : nat }.

(** Modelled from the spec: the cap on a neighbor list, [2M] at layer 0 and
    [M] above. *)
Definition cap (p : Params) (l : nat) : nat :=
  match l with
  | 0 => 2 * M p
  | S _ => M p
  end.

(** Modelled from the spec: ids in ascending order of distance to [q]; ties
    keep their order. *)
Fixpoint insert_by (s : VectorStore) (q : Vector) (x : nat) (l : list nat) : list nat :=
  match l with
  | [] => [x]
  | y :: l' =>
      if Qle_bool (dist_to s q y) (dist_to s q x)
      then y :: insert_by s q x l' else x :: l
  end.

(** Modelled from the spec: a list of ids put in that order. *)
Definition sort_by (s : VectorStore) (q : Vector) (l : list nat) : list nat :=
  foldr (insert_by s q) [] (reverse l).

(** Modelled from the spec: step 3 of section 4.2, the single-path greedy
    walk at one layer: move to the closest neighbor while it is strictly
    closer to [q] than the current node.  Every move lowers the distance, so
    a walk makes fewer moves than there are nodes; [fuel] is that bound. *)
Fixpoint greedy_walk (fuel : nat) (s : VectorStore) (g : HNSWGraph)
    (q : Vector) (l cur : nat) : nat :=
  match fuel with
  | 0 => cur
  | S fuel =>
      match sort_by s q (neighbors_at g cur l) with
      | best :: _ =>
          if Qlt_bool (dist_to s q best) (dist_to s q cur)
          then greedy_walk fuel s g q l best else cur
      | [] => cur
      end
  end.

(** Modelled from the spec: step 3 of section 4.2, the walk through the
    layers [top, top-1, .., level+1]. *)
Definition descend (s : VectorStore) (g : HNSWGraph) (q : Vector)
    (top level ep : nat) : nat :=
  foldl (λ cur l, greedy_walk (length (nodes g)) s g q l cur) ep
        (reverse (seq (S level) (top - level))).

(** Modelled from the spec: one neighbor [e] of an expanded candidate in
    the beam search of section 4.3: skipped when visited;
    otherwise marked, and kept as candidate and result when the results are
    not full or [e] is closer than the worst of them. *)
Definition visit (s : VectorStore) (q : Vector) (ef : nat)
    (st : gset nat * list nat * list nat) (e : nat) : gset nat * list nat * list nat :=
  let '(visited, C, W) := st in
  if decide (e ∈ visited) then st
  else
    let keep :=
      match last W with
      | Some worst =>
          bool_decide (length W < ef) || Qlt_bool (dist_to s q e) (dist_to s q worst)
      | None => true
      end in
    if keep then ({[e]} ∪ visited, insert_by s q e C, take ef (insert_by s q e W))
    else ({[e]} ∪ visited, C, W).

(** Modelled from the spec: the bounded beam search of sections 4.2 (step
    4) and 4.3 at one layer, with candidate-list width [ef]: the closest
    candidate is expanded until the result list is full and that candidate
    is no better than the worst kept result.  A node becomes a candidate at
    most once, so [fuel] is bounded by the number of nodes. *)
Fixpoint beam_loop (fuel : nat) (s : VectorStore) (g : HNSWGraph) (q : Vector)
    (l ef : nat) (visited : gset nat) (C W : list nat) : list nat :=
  match fuel with
  | 0 => W
  | S fuel =>
      match C with
      | [] => W
      | c :: C' =>
          let stop :=
            match last W with
            | Some worst =>
                bool_decide (ef ≤ length W) &&
                Qle_bool (dist_to s q worst) (dist_to s q c)
            | None => false
            end in
          if stop then W
          else
            let '(visited', C'', W') :=
              foldl (visit s q ef) (visited, C', W) (neighbors_at g c l) in
            beam_loop fuel s g q l ef visited' C'' W'
      end
  end.

(** Modelled from the spec: the beam search from one entry node. *)
Definition beam_search (s : VectorStore) (g : HNSWGraph) (q : Vector)
    (l ef ep : nat) : list nat :=
  beam_loop (S (length (nodes g))) s g q l ef {[ep]} [ep] [ep].

(** Modelled from the spec: step 5 of section 4.2.  The candidates are
    taken closest first; one is accepted unless it is closer to an accepted
    neighbor than to [q]; at most [cap] are accepted. *)
Fixpoint select_loop (s : VectorStore) (q : Vector) (cap : nat)
    (cands acc : list nat) : list nat :=
  match cands with
  | [] => acc
  | c :: rest =>
      if decide (cap ≤ length acc) then acc
      else if existsb (λ a, Qlt_bool (dist_to s (default [] (vectors s !! c)) a)
                                     (dist_to s q c)) acc
           then select_loop s q cap rest acc
           else select_loop s q cap rest (acc ++ [c])
  end.

(** Modelled from the spec: step 5 on an unordered candidate set. *)
Definition select_neighbors (s : VectorStore) (q : Vector) (cap : nat)
    (cands : list nat) : list nat :=
  select_loop s q cap (sort_by s q cands) [].

(** Modelled from the spec: step 6 of section 4.2, the edge back from a
    selected neighbor [nb] to the new node: appended, and when the list
    then exceeds the cap, the selection heuristic is run again on it. *)
Definition link_back (p : Params) (s : VectorStore) (l newId : nat)
    (g : HNSWGraph) (nb : nat) : HNSWGraph :=
  let ns := neighbors_at g nb l ++ [newId] in
  set_neighbors g nb l
    (if decide (cap p l < length ns)
     then select_neighbors s (default [] (vectors s !! nb)) (cap p l) ns
     else ns).

(** Modelled from the spec: steps 4 to 6 of section 4.2 for the layers
    [n-1, .., 0], from the current best node [cur]. *)
Fixpoint link_layers (n : nat) (p : Params) (s : VectorStore) (q : Vector)
    (newId cur : nat) (g : HNSWGraph) : HNSWGraph :=
  match n with
  | 0 => g
  | S l =>
      let W := beam_search s g q l (efConstruction p) cur in
      let selected := select_neighbors s q (cap p l) W in
      let g := set_neighbors g newId l selected in
      let g := foldl (link_back p s l newId) g selected in
      link_layers l p s q newId (default cur (head W)) g
  end.

(** Modelled from the spec: the index under construction, the store and the
    graph created together by the builder (section 3, lifecycle). *)
Record Index := mkIndex { params : Params; store : VectorStore; graph : HNSWGraph }.

(** Modelled from the spec: the index before the first insertion. *)
Definition empty (p : Params) (dim : nat) : Index :=
  mkIndex p (mkStore dim []) (mkGraph [] None).

(** Modelled from the spec: insertion of one vector, section 4.2.  The
    level drawn in step 1 is an argument (the draw is injectable, section
    9).  A vector of the wrong dimension is refused before anything is
    changed. *)
Definition add (idx : Index) (q : Vector) (level : nat) : Error + Index :=
  if decide (length q ≠ D (store idx)) then inl DimensionMismatch
  else
    let p := params idx in
    let g := graph idx in
    let newId := count (store idx) in
    let s := mkStore (D (store idx)) (vectors (store idx) ++ [q]) in
    let node := mkNode level (replicate (S level) []) in
    match entryPoint g with
    | None => inr (mkIndex p s (mkGraph (nodes g ++ [node]) (Some newId)))
    | Some ep =>
        let top := topLayer g in
        let cur := descend s g q top level ep in
        let g := mkGraph (nodes g ++ [node]) (entryPoint g) in
        let g := link_layers (S (level `min` top)) p s q newId cur g in
        inr (mkIndex p s
               (if decide (top < level) then mkGraph (nodes g) (Some newId) else g))
    end.

(** Modelled from the spec: a sequence of insertions; a refused vector
    leaves the index as it was (section 7). *)
Definition insert_all (idx : Index) (vs : list (Vector * nat)) : Index :=
  foldl (λ idx '(q, level),
           match add idx q level with
           | inr idx' => idx'
           | inl _ => idx
           end) idx vs.

(** Modelled from the spec: the neighbor-cap invariant of section 8, no
    list at layer [l] is longer than [cap l]. *)
Definition neighbor_cap (p : Params) (g : HNSWGraph) : Prop :=
  ∀ id node l ns,
    nodes g !! id = Some node → neighbors node !! l = Some ns → length ns ≤ cap p l.

End HNSW.

(** * The smoke tests: [test_api.py]

    The tests talk to the service over HTTP; here a request is one [serve]
    step on the service state, which is threaded through the tests. *)

Module TestApi.
Section Tests.
Import Service.
Context `{FaissLibrary}.

(** What ends a test: a failed [assert], or any other exception. *)
Inductive TestError := AssertionError | OtherException (name : string).

(** [requests.get] / [requests.post]: the state after the request and the
    response. *)
Definition http (index : State) (r : Request) : State * Response :=
  let '(index', _, response) := serve index r in (index', response).

(** [response.json()[key]] on a dictionary body; [None] is a [KeyError]. *)
Definition json_field (response : Response) (key : string) : option JSON :=
  match response with
  | RespDict body => body !! key
  | _ => None
  end.

(** [len(response.json()[key])] on the body of a search result. *)
Definition json_len (response : Response) (key : string) : option nat :=
  match response with
  | RespSearch body =>
      if bool_decide (key = "indices") then Some (length (indices body))
      else if bool_decide (key = "distances") then Some (length (distances body))
      else None
  | _ => None
  end.

(** [test_health_check] *)
Definition test_health_check (index : State) : State * (TestError + ()) :=
  let '(index, response) := http index GetRoot in
  (index,
   if bool_decide (status_of response = 200) then
     match json_field response "status" with
     | Some (JStr s) =>
         if bool_decide (s = "healthy") then inr () else inl AssertionError
     | Some (JInt _) => inl AssertionError
     | None => inl (OtherException "KeyError")
     end
   else inl AssertionError).

(** [test_stats] *)
Definition test_stats (index : State) : State * (TestError + ()) :=
  let '(index, response) := http index GetStats in
  (index,
   if bool_decide (status_of response = 200) then
     match json_field response "total_vectors" with
     | Some (JInt n) => if bool_decide (0 < n) then inr () else inl AssertionError
     | Some (JStr _) => inl (OtherException "TypeError")
     | None => inl (OtherException "KeyError")
     end
   else inl AssertionError).

(** [test_search], on the vector [np.random.randn(128).tolist()].  A
    response other than 200 is printed and asserts nothing. *)
Definition test_search (index : State) (query_vector : list float)
  : State * (TestError + ()) :=
  let '(index, response) := http index (PostSearch query_vector 10) in
  (index,
   if bool_decide (status_of response = 200) then
     match json_len response "indices" with
     | Some n =>
         if bool_decide (n = 10%nat) then
           match json_len response "distances" with
           | Some m => if bool_decide (m = 10%nat) then inr () else inl AssertionError
           | None => inl (OtherException "KeyError")
           end
         else inl AssertionError
     | None => inl (OtherException "KeyError")
     end
   else inr ()).

(** [test_invalid_dimension]; [x1], [x2], [x3] are the floats [0.1], [0.2]
    and [0.3] of the payload. *)
Definition test_invalid_dimension (index : State) (x1 x2 x3 : float)
  : State * (TestError + ()) :=
  let '(index, response) := http index (PostSearch [x1; x2; x3] 10) in
  (index,
   if bool_decide (status_of response = 400) then inr () else inl AssertionError).

(** What [run_all_tests] prints at the end (a connection error apart). *)
Inductive Report := AllPassed | TestFailed | UnexpectedError.

Definition report (e : TestError) : Report :=
  match e with
  | AssertionError => TestFailed
  | OtherException _ => UnexpectedError
  end.

(** [run_all_tests]: the four tests in order inside one [try]; the first
    exception ends the run. *)
Definition run_all_tests (index : State) (query_vector : list float)
    (x1 x2 x3 : float) : State * Report :=
  let '(index, r) := test_health_check index in
  match r with
  | inl e => (index, report e)
  | inr _ =>
      let '(index, r) := test_stats index in
      match r with
      | inl e => (index, report e)
      | inr _ =>
          let '(index, r) := test_search index query_vector in
          match r with
          | inl e => (index, report e)
          | inr _ =>
              let '(index, r) := test_invalid_dimension index x1 x2 x3 in
              match r with
              | inl e => (index, report e)
              | inr _ => (index, AllPassed)
              end
          end
      end
  end.

End Tests.
End TestApi.

(** * The benchmark: [benchmark.py] *)

Module Benchmark.

Definition N_QUERIES : Z := 1000.
Definition K : Z := 10.
Definition DIM : Z := 128.

(** [len(gt_set.intersection(hnsw_set))] for one query: the two rows of
    labels are made sets and the common labels are counted. *)
Definition hits (gt_indices_i hnsw_indices_i : list Z) : nat :=
  size (list_to_set gt_indices_i ∩ list_to_set hnsw_indices_i : gset Z).

(** [recall = len(gt_set.intersection(hnsw_set)) / K], as an exact
    fraction. *)
Definition recall (gt_indices_i hnsw_indices_i : list Z) : Q :=
  Qmake (Z.of_nat (hits gt_indices_i hnsw_indices_i)) (Z.to_pos K).

(** [statistics.mean]: the exact mean; no data point is a
    [StatisticsError]. *)
Definition mean (data : list Q) : Exception + Q :=
  match data with
  | [] => inl (PyException "StatisticsError" "mean requires at least one data point")
  | _ => inr (Qred (foldr Qplus 0%Q data / inject_Z (Z.of_nat (length data))))
  end.

Section Latency.
Import Service.
Context `{FaissLibrary}.

(** The latency loop.  A sample is a query row and the time measured around
    its request, in milliseconds; the time is kept when the response is
    200. *)
Fixpoint latencies (index : State) (samples : list (list float32 * Q)) : list Q :=
  match samples with
  | [] => []
  | (query, latency) :: samples =>
      let '(index, _, response) := serve index (PostSearch (to_float <$> query) K) in
      if bool_decide (status_of response = 200)
      then latency :: latencies index samples
      else latencies index samples
  end.

(** [avg_latency = statistics.mean(latencies)] *)
Definition avg_latency (index : State) (samples : list (list float32 * Q))
  : Exception + Q :=
  mean (latencies index samples).

End Latency.
End Benchmark.

(** * The client of the usage examples: [examples.py] *)

Module Client.
Section Client.
Import Service.
Context `{FaissLibrary}.

(** [requests.exceptions.HTTPError], with the response it carries. *)
Record HTTPError := mkHTTPError { response : Response }.

(** [response.raise_for_status()]: raises on a status from 400 to 599. *)
Definition raise_for_status (r : Response) : HTTPError + () :=
  if bool_decide (400 ≤ status_of r < 600) then inl (mkHTTPError r) else inr ().

(** [VectorWiseClient.search]: the request, [raise_for_status], the body. *)
Definition search (index : State) (query_vector : list float) (k : Z)
  : State * (HTTPError + Response) :=
  let '(index, r) := TestApi.http index (PostSearch query_vector k) in
  (index,
   match raise_for_status r with
   | inl e => inl e
   | inr _ => inr r
   end).

(** The lines [example_6_error_handling] prints after its headings. *)
Inductive Line :=
| ShouldHaveRaised
| CaughtExpected (status_code : Z)
| ErrorMessage (detail : option string).

(** [e.response.json()['detail']]: a string for an [HTTPException]; the
    list of a validation error is not a string ([None]). *)
Definition detail_of (r : Response) : option string :=
  match r with
  | RespError e => Some (detail e)
  | _ => None
  end.

(** [example_6_error_handling]: a search with a vector of 64 components and
    [k = 10] through the client, then a request with a vector of 128
    components and [k = 0]; each inside its own [try]. *)
Definition example_6_error_handling (index : State)
    (invalid_query valid_query : list float) : State * list Line :=
  let '(index, r) := search index invalid_query 10 in
  let first :=
    match r with
    | inr _ => [ShouldHaveRaised]
    | inl e => [CaughtExpected (status_of (response e));
                ErrorMessage (detail_of (response e))]
    end in
  let '(index, r) := TestApi.http index (PostSearch valid_query 0) in
  let second :=
    match raise_for_status r with
    | inr _ => [ShouldHaveRaised]
    | inl e => [CaughtExpected (status_of (response e))]
    end in
  (index, first ++ second).

(** [example_5_normalized_vectors] after the norms are printed: the search
    with [k = 10], then the first three results by index. *)
Definition example_5_normalized_vectors (index : State)
    (query_normalized : list float)
  : State * (HTTPError + (Exception + list (Z * float))) :=
  let '(index, r) := search index query_normalized 10 in
  (index,
   match r with
   | inl e => inl e
   | inr (RespSearch body) =>
       inr (outcome
              (mapM (M:=Eff Exception)
                 (λ i, idx ← getitem (indices body) i;
                       dist ← getitem (distances body) i;
                       mret (idx, dist))
                 (seq 0 3)))
   | inr _ => inr (inl (PyException "KeyError" "indices"))
   end).

End Client.
End Client.

(** * Concrete data on which the statements below are run *)

Module Examples.
Import FlatL2.

(** The vector of dimension 128 with [c] at position [i] and 0 elsewhere. *)
Definition axis (i : nat) (c : Q) : list Q :=
  replicate i 0%Q ++ c :: replicate (127 - i) 0%Q.

Definition five_vectors : list (list Q) := (λ i, axis i 1%Q) <$> seq 0 5.

(** An empty flat index of dimension 128, and the same with five vectors. *)
Definition index0 : Index (list (list Q)) := IndexFlatL2 128.
Definition index5 : Index (list (list Q)) :=
  mkIndex "IndexFlatL2" 128 5 None five_vectors.

(** The five vectors behind the attribute block of an HNSW index, as an
    artifact holds it: [efSearch] at the library's default. *)
Definition hnsw5 : Index (list (list Q)) :=
  mkIndex "IndexHNSWFlat" 128 5 (Some (mkHNSWParams 32 200 16 2)) five_vectors.

(** A query along the first axis, with [k = 10] and with [k = 3]. *)
Definition request10 : Service.SearchRequest := Service.mkSearchRequest (axis 0 3%Q) 10.

(** The query of the invalid-dimension test: three components. *)
Definition short_request : Service.SearchRequest :=
  Service.mkSearchRequest [1 # 10; 2 # 10; 3 # 10]%Q 10.

(** The attributes of an index built with [M = 32] over a million vectors,
    whose graph has grown to layer 4, after [load_index]. *)
Definition index_m32 : Index (list (list Q)) :=
  mkIndex "IndexHNSWFlat" 128 1000000 (Some (mkHNSWParams 32 200 64 4)) [].

(** Four points of the plane inserted at layer 0 with [M = 1]. *)
Definition plane_params : HNSW.Params := HNSW.mkParams 1 4.
Definition plane_points : list (HNSW.Vector * nat) :=
  [([0; 0]%Q, 0%nat); ([1; 0]%Q, 0%nat); ([-1; 0]%Q, 0%nat); ([0; 100]%Q, 0%nat)].

End Examples.

(** * Further data: a built index, rows of labels, timed samples *)

Module Fixtures.
Import FlatL2.

(** Two generated vectors, and the index the build script makes of them
    with the flat library. *)
Definition randn2 : list (list Q) := [Examples.axis 0 3%Q; Examples.axis 1 (-2)%Q].
Definition built2 : Index (list (list Q)) :=
  mkIndex "IndexHNSWFlat" 128 2 (Some (mkHNSWParams 32 200 16 0))
    [Examples.axis 0 1%Q; Examples.axis 1 (-1)%Q].

(** A vector of 64 components, and a flat index of dimension 64 holding
    it. *)
Definition query64 : list Q := replicate 64 1%Q.
Definition index64 : Index (list (list Q)) :=
  mkIndex "IndexFlatL2" 64 1 None [query64].

(** Ten distinct labels, the same in reverse, and the row of a search for
    ten neighbors among five vectors. *)
Definition labels10 : list Z := [7; 3; 9; 1; 4; 0; 8; 2; 6; 5].
Definition padded10 : list Z := [0; 1; 2; 3; 4; -1; -1; -1; -1; -1].


End Fixtures.

(** * Properties of the index core *)

Section NeighborCap.
Import HNSW.
Local Open Scope nat_scope.

Variable p : Params.

Lemma select_loop_length s q c cands acc :
  length acc ≤ c → length (select_loop s q c cands acc) ≤ c.
Proof.
  revert acc. induction cands as [|x rest IH]; intros acc Hacc; simpl; [done|].
  destruct (decide (c ≤ length acc)); [done|].
  destruct (existsb _ acc); apply IH; [done|].
  rewrite length_app. simpl. lia.
Qed.

Lemma select_neighbors_length s q c cands :
  length (select_neighbors s q c cands) ≤ c.
Proof. apply select_loop_length. simpl. lia. Qed.

Lemma neighbor_cap_set_neighbors g id l ns :
  neighbor_cap p g → length ns ≤ cap p l →
  neighbor_cap p (set_neighbors g id l ns).
Proof.
  intros Hg Hns. unfold set_neighbors.
  destruct (nodes g !! id) as [node|] eqn:Hid; [|done].
  intros id' node' l' ns' Hnode Hl. simpl in Hnode.
  apply list_lookup_insert_Some in Hnode as [(-> & <- & _)|(_ & Hnode)].
  - simpl in Hl.
    apply list_lookup_insert_Some in Hl as [(-> & <- & _)|(_ & Hl)]; [done|].
    by eapply Hg.
  - by eapply Hg.
Qed.

Lemma neighbor_cap_link_back s l newId g nb :
  neighbor_cap p g → neighbor_cap p (link_back p s l newId g nb).
Proof.
  intros Hg. unfold link_back. apply neighbor_cap_set_neighbors; [done|].
  case_decide; [apply select_neighbors_length | lia].
Qed.

Lemma neighbor_cap_link_all s l newId selected g :
  neighbor_cap p g → neighbor_cap p (foldl (link_back p s l newId) g selected).
Proof.
  revert g. induction selected as [|nb rest IH]; intros g Hg; simpl; [done|].
  by apply IH, neighbor_cap_link_back.
Qed.

Lemma neighbor_cap_link_layers n s q newId cur g :
  neighbor_cap p g → neighbor_cap p (link_layers n p s q newId cur g).
Proof.
  revert cur g. induction n as [|l IH]; intros cur g Hg; simpl; [done|].
  apply IH, neighbor_cap_link_all, neighbor_cap_set_neighbors; [done|].
  apply select_neighbors_length.
Qed.

(** A node that enters the graph has one empty list per layer. *)
Lemma neighbor_cap_fresh_node g level ep :
  neighbor_cap p g →
  neighbor_cap p (mkGraph (nodes g ++ [mkNode level (replicate (S level) [])]) ep).
Proof.
  intros Hg id node l ns Hnode Hl. cbn [nodes] in Hnode.
  apply lookup_app_Some in Hnode as [Hnode|[_ Hnode]]; [by eapply Hg|].
  apply list_lookup_singleton_Some in Hnode as [_ <-].
  cbn [neighbors] in Hl. apply lookup_replicate in Hl as [-> _]. simpl. lia.
Qed.

Lemma neighbor_cap_entry g ep :
  neighbor_cap p g → neighbor_cap p (mkGraph (nodes g) ep).
Proof. intros Hg id node l ns. apply Hg. Qed.

Lemma add_params idx q level idx' :
  add idx q level = inr idx' → params idx' = params idx.
Proof.
  unfold add. case_decide; [done|].
  destruct (entryPoint (graph idx)); intros [= <-]; done.
Qed.

Lemma neighbor_cap_add idx q level idx' :
  params idx = p → neighbor_cap p (graph idx) →
  add idx q level = inr idx' → neighbor_cap p (graph idx').
Proof.
  intros Hp Hg. unfold add. case_decide; [done|]. rewrite Hp.
  destruct (entryPoint (graph idx)) as [ep|] eqn:Hep;
    intros Heq; apply (inj inr) in Heq; subst idx'; cbn [graph].
  - case_decide.
    + apply neighbor_cap_entry. apply neighbor_cap_link_layers.
      by apply neighbor_cap_fresh_node.
    + apply neighbor_cap_link_layers. by apply neighbor_cap_fresh_node.
  - by apply neighbor_cap_fresh_node.
Qed.

Lemma neighbor_cap_insert_all idx vs :
  params idx = p → neighbor_cap p (graph idx) →
  neighbor_cap p (graph (insert_all idx vs)).
Proof.
  revert idx. induction vs as [|[q level] vs IH]; intros idx Hp Hg; [done|].
  unfold insert_all. simpl. fold (insert_all).
  destruct (add idx q level) as [e|idx'] eqn:Hadd.
  - by apply IH.
  - apply IH; [by rewrite (add_params _ _ _ _ Hadd)|by eapply neighbor_cap_add].
Qed.

End NeighborCap.

(** C7. After every sequence of insertions into an empty graph, whatever
    the vectors, the drawn levels and the build parameters, every neighbor
    list at layer [l] holds at most [cap l] ids: [2M] at layer 0 and [M] at
    every layer above. *)
Theorem neighbor_cap_after_insertions (p : HNSW.Params) (dim : nat)
    (vs : list (HNSW.Vector * nat)) :
  ∀ id node l ns,
    HNSW.nodes (HNSW.graph (HNSW.insert_all (HNSW.empty p dim) vs)) !! id = Some node →
    HNSW.neighbors node !! l = Some ns →
    (length ns ≤ if decide (l = 0%nat) then 2 * HNSW.M p else HNSW.M p)%nat.
Proof.
  intros id node l ns Hnode Hl.
  assert (Hcap : HNSW.neighbor_cap p
            (HNSW.graph (HNSW.insert_all (HNSW.empty p dim) vs))).
  { apply neighbor_cap_insert_all; [done|]. intros ? ? ? ? Hn. by simpl in Hn. }
  specialize (Hcap id node l ns Hnode Hl).
  destruct l; simpl in *; done.
Qed.

(** * Properties of the service *)

Section ServiceProperties.
Import Service.
Context `{FaissLibrary}.

Lemma search_body_calls index request :
  calls (search_body index request) =
    [CallNormalizeL2 [query_row request];
     CallSearch index [fvec_renorm_L2 (query_row request)] (k request)].
Proof.
  unfold search_body, mbind, Eff_bind, call, getitem; simpl.
  destruct (index_search _ _ _) as [e|[Ds Is]]; simpl; [done|].
  destruct (Is !! 0%nat); simpl; [|done].
  destruct (Ds !! 0%nat); simpl; done.
Qed.

Lemma search_body_outcome index request :
  outcome (search_body index request) =
    match index_search index [fvec_renorm_L2 (query_row request)] (k request) with
    | inl e => inl e
    | inr (Ds, Is) =>
        match Is !! 0%nat, Ds !! 0%nat with
        | Some irow, Some drow => inr (mkSearchResult irow (to_float <$> drow))
        | _, _ => inl (PyException "IndexError" "index out of bounds")
        end
    end.
Proof.
  unfold search_body, mbind, Eff_bind, call, getitem; simpl.
  destruct (index_search _ _ _) as [e|[Ds Is]]; simpl; [done|].
  destruct (Is !! 0%nat); simpl; [|done].
  destruct (Ds !! 0%nat); simpl; done.
Qed.

Lemma search_loaded_ok index request :
  Z.of_nat (length (query_vector request)) = DIM →
  search (Some index) request =
    try_except (search_body index request)
      (λ e, raise (mkHTTPException 500 ("Search failed: " +:+ exn_msg e))).
Proof. intros Hd. unfold search. by rewrite bool_decide_eq_false_2 by (by intros ?). Qed.

Lemma serve_state index r : (serve index r).1.1 = index.
Proof.
  destruct r as [|qv kk|]; simpl; [done| |done].
  by destruct (parse_SearchRequest qv kk).
Qed.

Lemma run_state index rs : (run index rs).1 = index.
Proof.
  revert index. induction rs as [|r rs IH]; intros index; simpl; [done|].
  pose proof (serve_state index r) as Hs.
  destruct (serve index r) as [[index' cs] resp]. simpl in Hs. subst index'.
  specialize (IH index). destruct (run index rs) as [index'' resps]. done.
Qed.

(** For any library: on a loaded index and a query of dimension 128, when
    the library's search succeeds, the handler returns the one row of
    labels and the one row of distances the library filled, as they are:
    exactly [k] ids and [k] distances in the library's order.  Nothing is
    cut down to the number of stored vectors. *)
Theorem search_returns_engine_row index request Ds Is :
  search_shape →
  Z.of_nat (length (query_vector request)) = DIM →
  index_search index [fvec_renorm_L2 (query_row request)] (k request) = inr (Ds, Is) →
  ∃ drow irow,
    Ds = [drow] ∧ Is = [irow] ∧
    outcome (search (Some index) request)
      = inr (mkSearchResult irow (to_float <$> drow)) ∧
    length irow = Z.to_nat (k request) ∧
    length (to_float <$> drow) = Z.to_nat (k request).
Proof.
  intros Hshape Hd Hs.
  destruct (Hshape _ _ _ _ _ Hs) as (drow & irow & -> & -> & Hdl & Hil).
  exists drow, irow. repeat split; [|done|by rewrite length_fmap].
  rewrite search_loaded_ok by done. unfold try_except.
  rewrite search_body_outcome, Hs. done.
Qed.

(** C2. A query whose length is not 128, sent to a loaded index, is
    answered 400 by the handler; no library call has been made (neither the
    normalisation nor the search), and the state after the request is the
    state before it. *)
Theorem wrong_dimension_rejected index request :
  Z.of_nat (length (query_vector request)) ≠ DIM →
  search (Some index) request =
    mkEff [] (inl (mkHTTPException 400
                     ("Query vector must have dimension 128, got " +:+
                      pretty (length (query_vector request))))) ∧
  (serve (Some index) (PostSearch (query_vector request) (k request))).1
    = (Some index, []).
Proof.
  intros Hd.
  assert (Hs : search (Some index) request =
    mkEff [] (inl (mkHTTPException 400
                     ("Query vector must have dimension 128, got " +:+
                      pretty (length (query_vector request)))))).
  { unfold search. by rewrite bool_decide_eq_true_2 by done. }
  split; [done|]. simpl.
  destruct (parse_SearchRequest _ _) as [request'|] eqn:Hp; [|done].
  unfold parse_SearchRequest in Hp. destruct (k_valid _); [|done].
  injection Hp as <-. destruct request as [qv kk]. simpl in *. by rewrite Hs.
Qed.

(** C3. A request whose [k] is not strictly positive, or exceeds the cap of
    100, fails validation: it is answered 422, no handler runs and no
    library call is made.  Every [k] from 1 to 100 passes validation. *)
Theorem k_validation index query_vector k :
  (k ≤ 0 ∨ 100 < k →
     serve index (PostSearch query_vector k) = (index, [], RespValidationError) ∧
     status_of RespValidationError = 422) ∧
  (1 ≤ k ≤ 100 →
     parse_SearchRequest query_vector k = Some (mkSearchRequest query_vector k)).
Proof.
  split; intros Hk.
  - split; [|done]. simpl. unfold parse_SearchRequest, k_valid.
    destruct (0 <? k) eqn:H0; destruct (k <=? 100) eqn:H1; simpl; try done. lia.
  - unfold parse_SearchRequest, k_valid.
    destruct (0 <? k) eqn:H0; destruct (k <=? 100) eqn:H1; simpl; try done; lia.
Qed.

(** What [get_stats] files under each key for an index with an [hnsw]
    attribute block. *)
Lemma get_stats_hnsw index h :
  hnsw index = Some h →
  ∃ stats, get_stats (Some index) = inr stats ∧
    stats !! "total_vectors" = Some (JInt (ntotal index)) ∧
    stats !! "dimension" = Some (JInt 128) ∧
    stats !! "hnsw_efSearch" = Some (JInt (efSearch h)) ∧
    stats !! "hnsw_m" = Some (JInt (max_level h)).
Proof.
  intros Hh. unfold get_stats. rewrite Hh. eexists. split; [done|].
  repeat split; reflexivity.
Qed.

(** For any library: for a query of dimension 128 on a loaded index the
    handler makes two library calls, in this order: [normalize_L2] on the one-row float32
    matrix of the query, then [search] on the row that call produced.  The
    build script calls the same [normalize_L2] on the float32 matrix of all
    vectors before it adds them.  Both sides therefore go through the same
    row function: the row searched is [fvec_renorm_L2] of the query and each
    row added is [fvec_renorm_L2] of a generated vector. *)
Theorem query_normalized_as_build_vectors index request randn :
  Z.of_nat (length (query_vector request)) = DIM →
  calls (search (Some index) request) =
    [CallNormalizeL2 [query_row request];
     CallSearch index [fvec_renorm_L2 (query_row request)] (k request)] ∧
  calls (GenerateData.build randn) =
    [CallNormalizeL2 (fmap (M:=list) (fmap (M:=list) as_float32) randn);
     CallAdd (set_efConstruction 200 (IndexHNSWFlat 128 32))
             (fvec_renorm_L2 <$> fmap (M:=list) (fmap (M:=list) as_float32) randn)].
Proof.
  intros Hd. split.
  - rewrite search_loaded_ok by done. unfold try_except.
    rewrite search_body_calls.
    destruct (outcome (search_body index request)); simpl; done.
  - unfold GenerateData.build, mbind, Eff_bind, call; simpl.
    destruct (index_add _ _); simpl; done.
Qed.

(** C6. Every outcome of the search handler falls in exactly one class:
    503 when no index is loaded; 400 when an index is loaded and the query
    length is not 128; 500 when the index is loaded, the length is right and
    the body of the [try] raised; a result otherwise.  [get_stats] answers
    503 exactly when no index is loaded. *)
Theorem failure_mapping index request :
  match outcome (search index request) with
  | inl e =>
      (status_code e = 503 ∧ index = None) ∨
      (status_code e = 400 ∧ is_Some index ∧
         Z.of_nat (length (query_vector request)) ≠ DIM) ∨
      (status_code e = 500 ∧
         Z.of_nat (length (query_vector request)) = DIM ∧
         ∃ i exn, index = Some i ∧ outcome (search_body i request) = inl exn)
  | inr body =>
      Z.of_nat (length (query_vector request)) = DIM ∧
      ∃ i, index = Some i ∧ outcome (search_body i request) = inr body
  end ∧
  match get_stats index with
  | inl e => status_code e = 503 ∧ index = None
  | inr _ => is_Some index
  end.
Proof.
  split.
  - destruct index as [i|]; simpl; [|by left].
    case_bool_decide as Hd; simpl; [by right; left|].
    assert (Hd' : Z.of_nat (length (query_vector request)) = DIM)
      by (by destruct (decide (Z.of_nat (length (query_vector request)) = DIM))).
    unfold try_except.
    destruct (outcome (search_body i request)) as [exn|body] eqn:Hb; simpl.
    + right; right. eauto 6.
    + eauto.
  - destruct index as [i|]; simpl; [by eexists|done].
Qed.

(** Two loads of the same artifact, whatever was loaded before and
    whatever requests each process has served since, answer a search
    request alike: same state, same library calls, same response (ids,
    distances and their order).  The [efSearch] of a loaded HNSW index is
    the fixed value 64. *)
Theorem search_same_after_each_load file prev1 prev2 history1 history2 query_vector k :
  (load_index file prev1).2 = inr () →
  serve (run (load_index file prev1).1 history1).1 (PostSearch query_vector k) =
  serve (run (load_index file prev2).1 history2).1 (PostSearch query_vector k) ∧
  match (load_index file prev1).1 ≫= hnsw with
  | Some h => efSearch h = 64
  | None => True
  end.
Proof.
  intros Hl. rewrite !run_state. unfold load_index in *.
  destruct (read_index file) as [e|index']; [done|]. split; [done|]. simpl.
  destruct (hnsw index') as [h|] eqn:Hh; simpl; by rewrite Hh.
Qed.

(** C9. With no index loaded the search handler answers 503 whatever the
    request, a query of the wrong length included; an answer 400 is only
    given with an index loaded. *)
Theorem index_check_precedes_dimension_check index request :
  (index = None →
     search index request = mkEff [] (inl (mkHTTPException 503 "Index not loaded"))) ∧
  (∀ e, outcome (search index request) = inl e → status_code e = 400 →
        is_Some index).
Proof.
  split.
  - by intros ->.
  - intros e He Hc. destruct index; [by eexists|].
    simpl in He. injection He as <-. done.
Qed.

(** C10. The health check returns its dictionary in every state and makes
    no library call: status "healthy", and as [vectors_indexed] the count of
    the index when one is loaded and 0 when none is.  With no index loaded
    it still answers "healthy" while the search handler answers 503. *)
Theorem root_always_healthy index request :
  serve index GetRoot = (index, [], RespDict (root index)) ∧
  status_of (RespDict (root index)) = 200 ∧
  root index !! "service" = Some (JStr "VectorWise") ∧
  root index !! "status" = Some (JStr "healthy") ∧
  root index !! "vectors_indexed" =
    Some (JInt (match index with Some i => ntotal i | None => 0 end)) ∧
  root None !! "status" = Some (JStr "healthy") ∧
  root None !! "vectors_indexed" = Some (JInt 0) ∧
  outcome (search None request) = inl (mkHTTPException 503 "Index not loaded").
Proof. repeat split; reflexivity. Qed.

End ServiceProperties.

(** * The flat index satisfies the library's contract *)

Section FlatIndex.
Import FlatL2.

Lemma knn_row_length vs q k :
  length (knn_row vs q k).1 = k ∧ length (knn_row vs q k).2 = k.
Proof.
  unfold knn_row; simpl.
  rewrite !length_app, !length_fmap, !length_replicate, !length_take. lia.
Qed.

Lemma flat_search_shape : search_shape.
Proof.
  intros index q k Ds Is Hs. simpl in Hs. unfold search in Hs.
  destruct (rows_have_dim _ _ && _); [|done].
  injection Hs as <- <-. simpl.
  eexists _, _. repeat split; apply knn_row_length.
Qed.

Lemma flat_add_five : add Examples.index0 Examples.five_vectors = inr Examples.index5.
Proof. reflexivity. Qed.

End FlatIndex.

(** * The statements on concrete data *)

Section Runs.
Import FlatL2 Service Examples.

Lemma search_returns_engine_row_witness :
  ∃ drow irow,
    [(knn_row five_vectors (renorm (axis 0 3%Q)) 10).1] = [drow] ∧
    [(knn_row five_vectors (renorm (axis 0 3%Q)) 10).2] = [irow] ∧
    outcome (search (Some index5) request10)
      = inr (mkSearchResult irow (to_float <$> drow)) ∧
    length irow = 10%nat ∧
    length (to_float <$> drow) = 10%nat.
Proof.
  apply (search_returns_engine_row (H:=library) index5 request10 _ _ flat_search_shape);
    reflexivity.
Defined.


Lemma wrong_dimension_rejected_witness :
  search (Some index5) short_request =
    mkEff [] (inl (mkHTTPException 400
                     "Query vector must have dimension 128, got 3")) ∧
  (serve (Some index5) (PostSearch (query_vector short_request) 10)).1
    = (Some index5, []).
Proof.
  apply (wrong_dimension_rejected (H:=library) index5 short_request).
  vm_compute. discriminate.
Defined.

Lemma k_validation_witness :
  (serve (Some index5) (PostSearch (axis 0 3%Q) 0)
     = (Some index5, [], RespValidationError) ∧
   status_of (H:=library) RespValidationError = 422) ∧
  (serve (Some index5) (PostSearch (axis 0 3%Q) 101)
     = (Some index5, [], RespValidationError) ∧
   status_of (H:=library) RespValidationError = 422) ∧
  parse_SearchRequest (axis 0 3%Q) 1 = Some (mkSearchRequest (axis 0 3%Q) 1) ∧
  parse_SearchRequest (axis 0 3%Q) 100 = Some (mkSearchRequest (axis 0 3%Q) 100).
Proof.
  split; [|split; [|split]].
  - apply (proj1 (k_validation (H:=library) (Some index5) (axis 0 3%Q) 0)). lia.
  - apply (proj1 (k_validation (H:=library) (Some index5) (axis 0 3%Q) 101)). lia.
  - apply (proj2 (k_validation (H:=library) (Some index5) (axis 0 3%Q) 1)). lia.
  - apply (proj2 (k_validation (H:=library) (Some index5) (axis 0 3%Q) 100)). lia.
Defined.

(** C4 fails on the code.  For an index built with [M = 32] whose graph has
    four layers above the base, [get_stats] files 4, the [max_level] of the
    graph, under the key "hnsw_m"; the count, the dimension and [efSearch]
    are reported as they are. *)
Theorem get_stats_reports_max_level_as_hnsw_m :
  ∃ stats, get_stats (Some index_m32) = inr stats ∧
    Faiss.M <$> hnsw index_m32 = Some 32 ∧
    stats !! "hnsw_m" = Some (JInt 4) ∧
    stats !! "hnsw_m" ≠ Some (JInt 32) ∧
    stats !! "total_vectors" = Some (JInt 1000000) ∧
    stats !! "dimension" = Some (JInt 128) ∧
    stats !! "hnsw_efSearch" = Some (JInt 64).
Proof.
  eexists. split; [reflexivity|]. repeat split; try reflexivity.
  vm_compute. discriminate.
Qed.

Lemma query_normalized_as_build_vectors_witness :
  calls (search (Some index5) request10) =
    [CallNormalizeL2 [axis 0 3%Q];
     CallSearch index5 [renorm (axis 0 3%Q)] 10] ∧
  calls (GenerateData.build [axis 0 3%Q; axis 1 (-2)%Q]) =
    [CallNormalizeL2 [axis 0 3%Q; axis 1 (-2)%Q];
     CallAdd (set_efConstruction 200 (IndexHNSWFlat 128 32))
             [renorm (axis 0 3%Q); renorm (axis 1 (-2)%Q)]].
Proof.
  apply (query_normalized_as_build_vectors (H:=library) index5 request10
           [axis 0 3%Q; axis 1 (-2)%Q]).
  reflexivity.
Defined.

Lemma search_same_after_each_load_witness :
  serve (run (load_index (H:=library) hnsw5 None).1
             [@GetStats library; @PostSearch library (axis 1 1%Q) 2]).1
        (PostSearch (axis 0 3%Q) 10) =
  serve (run (load_index (H:=library) hnsw5 (Some index0)).1 [@GetRoot library]).1
        (PostSearch (axis 0 3%Q) 10) ∧
  match (load_index (H:=library) hnsw5 None).1 ≫= hnsw with
  | Some h => efSearch h = 64
  | None => True
  end.
Proof.
  apply (search_same_after_each_load (H:=library) hnsw5 None (Some index0)
           [@GetStats library; @PostSearch library (axis 1 1%Q) 2]
           [@GetRoot library] (axis 0 3%Q) 10).
  reflexivity.
Defined.

Lemma index_check_precedes_dimension_check_witness :
  search None short_request
    = mkEff [] (inl (mkHTTPException 503 "Index not loaded")) ∧
  is_Some (Some index5).
Proof.
  split.
  - apply (proj1 (index_check_precedes_dimension_check (H:=library) None short_request)).
    reflexivity.
  - apply (proj2 (index_check_precedes_dimension_check (H:=library) (Some index5) short_request)
             (mkHTTPException 400 "Query vector must have dimension 128, got 3")).
    + reflexivity.
    + reflexivity.
Defined.

Lemma neighbor_cap_after_insertions_witness :
  HNSW.nodes (HNSW.graph (HNSW.insert_all (HNSW.empty plane_params 2) plane_points))
    !! 0%nat = Some (HNSW.mkNode 0 [[1%nat; 2%nat]]) ∧
  (length [1%nat; 2%nat] ≤ 2)%nat.
Proof.
  split; [vm_compute; reflexivity|].
  apply (neighbor_cap_after_insertions plane_params 2 plane_points 0%nat
           (HNSW.mkNode 0 [[1%nat; 2%nat]]) 0%nat [1%nat; 2%nat]);
    vm_compute; reflexivity.
Defined.

End Runs.

(** * Further properties of the service *)

Section ServiceMore.
Import Service.
Context `{FaissLibrary}.

(** The result of a successful search has the width the library filled. *)
Lemma search_result_lengths index request body :
  search_shape →
  outcome (search index request) = inr body →
  length (indices body) = Z.to_nat (k request) ∧
  length (distances body) = Z.to_nat (k request).
Proof.
  intros Hshape Hb. destruct index as [i|]; [|done]. simpl in Hb.
  case_bool_decide; [done|]. unfold try_except in Hb.
  rewrite search_body_outcome in Hb.
  destruct (index_search _ _ _) as [e|[Ds Is]] eqn:Hs; [done|].
  destruct (Hshape _ _ _ _ _ Hs) as (drow & irow & -> & -> & Hdl & Hil).
  simpl in Hb. injection Hb as <-. simpl. by rewrite length_fmap.
Qed.

Lemma parse_SearchRequest_Some query_vector k request :
  parse_SearchRequest query_vector k = Some request ↔
  1 ≤ k ≤ 100 ∧ request = mkSearchRequest query_vector k.
Proof.
  unfold parse_SearchRequest, k_valid.
  destruct (0 <? k) eqn:H0; destruct (k <=? 100) eqn:H1; simpl;
    split; try (intros [? ?]; lia); try done.
  - intros [= <-]. split; [lia|done].
  - by intros [_ ->].
Qed.

(** X1. The service answers with five status codes and no other: the
    health check always 200; the statistics 200 with an index and 503
    without; a search one of 200, 400, 422, 500, 503. *)
Theorem serve_status_codes index r :
  match r with
  | GetRoot => status_of (serve index r).2 = 200
  | GetStats =>
      status_of (serve index r).2 = match index with Some _ => 200 | None => 503 end
  | PostSearch _ _ => status_of (serve index r).2 ∈ [200; 400; 422; 500; 503]
  end.
Proof.
  destruct r as [|qv kk|]; simpl; [done| |by destruct index].
  destruct (parse_SearchRequest qv kk) as [request|]; simpl; [|set_solver].
  destruct index as [i|]; simpl; [|set_solver].
  case_bool_decide; simpl; [set_solver|].
  unfold try_except. destruct (outcome (search_body i request)); simpl; set_solver.
Qed.

(** X2. A search request is answered 200 exactly when an index is loaded,
    [k] lies between 1 and 100, the query has 128 components, and neither
    the library calls nor the reading of row 0 raised. *)
Theorem search_answers_200_iff index query_vector k :
  status_of (serve index (PostSearch query_vector k)).2 = 200 ↔
  ∃ i body, index = Some i ∧ 1 ≤ k ≤ 100 ∧
            Z.of_nat (length query_vector) = 128 ∧
            outcome (search_body i (mkSearchRequest query_vector k)) = inr body.
Proof.
  unfold serve. split.
  - destruct (parse_SearchRequest query_vector k) as [request|] eqn:Hp; [|done].
    apply parse_SearchRequest_Some in Hp as [Hk ->].
    destruct index as [i|]; [|done].
    destruct (decide (Z.of_nat (length query_vector) = 128)) as [Hd|Hd].
    + rewrite search_loaded_ok by done. unfold try_except.
      destruct (outcome (search_body i _)) as [e|body] eqn:Hb; [done|].
      intros _. by exists i, body.
    + unfold search. by rewrite bool_decide_eq_true_2 by done.
  - intros (i & body & -> & Hk & Hd & Hb).
    assert (Hp : parse_SearchRequest query_vector k
                 = Some (mkSearchRequest query_vector k))
      by by apply parse_SearchRequest_Some.
    rewrite Hp. rewrite search_loaded_ok by done.
    unfold try_except. by rewrite Hb.
Qed.

(** X3. The statistics of an index without an [hnsw] attribute have the
    three keys "total_vectors", "dimension" and "index_type" and no other;
    with the attribute they have "hnsw_m" and "hnsw_efSearch" besides. *)
Theorem get_stats_keys index :
  ∃ stats, get_stats (Some index) = inr stats ∧
    dom stats =
      match hnsw index with
      | Some _ => {[ "total_vectors"; "dimension"; "index_type";
                     "hnsw_m"; "hnsw_efSearch" ]}
      | None => {[ "total_vectors"; "dimension"; "index_type" ]}
      end.
Proof.
  eexists. split; [done|].
  destruct (hnsw index); rewrite ?dom_insert_L, !dom_singleton_L; set_solver.
Qed.

(** X4. The two read-only endpoints agree on the count: whenever the
    statistics are served, their "total_vectors" is the "vectors_indexed" of
    the health check; when they are refused (503) the health check reports
    0. *)
Theorem stats_count_is_health_count index :
  match get_stats index with
  | inr stats => stats !! "total_vectors" = root index !! "vectors_indexed"
  | inl e => status_code e = 503 ∧ root index !! "vectors_indexed" = Some (JInt 0)
  end.
Proof.
  destruct index as [i|]; simpl; [|done].
  destruct (hnsw i); reflexivity.
Qed.

(** X5. What the service reports after [load_index].  When the file cannot
    be read the exception is passed on and the previous index stays.
    Otherwise the statistics show the count and the type of the index read,
    and for an HNSW index "hnsw_efSearch" is 64 whatever value the file
    carried. *)
Theorem stats_after_load file prev :
  match read_index file with
  | inl e => load_index file prev = (prev, inl e)
  | inr index' =>
      (load_index file prev).2 = inr () ∧
      ∃ stats, get_stats (load_index file prev).1 = inr stats ∧
        stats !! "total_vectors" = Some (JInt (ntotal index')) ∧
        stats !! "index_type" = Some (JStr (type_name index')) ∧
        stats !! "hnsw_efSearch" = (λ _, JInt 64) <$> hnsw index'
  end.
Proof.
  unfold load_index. destruct (read_index file) as [e|index']; [done|].
  split; [done|]. simpl.
  destruct (hnsw index') as [h|] eqn:Hh; simpl; rewrite Hh; simpl;
    eexists; (split; [done|]); repeat split; reflexivity.
Qed.

(** X6. The service started on the artifact the build script wrote serves
    the index the script built: when the library reads back what it wrote,
    the state after [load_index] is that index (with [efSearch] set to 64
    when it has an [hnsw] block), and the health check reports its count. *)
Theorem service_on_built_artifact randn index file prev :
  outcome (GenerateData.build randn) = inr (index, file) →
  read_index (write_index index) = inr index →
  file = write_index index ∧
  load_index file prev =
    (Some (match hnsw index with
           | Some _ => set_efSearch 64 index
           | None => index
           end), inr ()) ∧
  root (load_index file prev).1 !! "vectors_indexed" = Some (JInt (ntotal index)).
Proof.
  intros Hb Hr.
  assert (Hf : file = write_index index).
  { unfold GenerateData.build, mbind, Eff_bind, call in Hb; simpl in Hb.
    destruct (index_add _ _) as [e|index'']; simpl in Hb; [done|].
    by injection Hb as -> <-. }
  subst file. unfold load_index. rewrite Hr. repeat split.
  destruct (hnsw index); reflexivity.
Qed.

End ServiceMore.

(** * Properties of the smoke tests *)

Section TestProperties.
Import Service TestApi.
Context `{FaissLibrary}.

Lemma http_state index r : (http index r).1 = index.
Proof.
  unfold http. pose proof (serve_state index r) as Hs.
  by destruct (serve index r) as [[index' cs] resp].
Qed.

(** The status of an exception of the search handler. *)
Lemma search_error_status index request e :
  outcome (search index request) = inl e →
  status_code e = match index with
                  | None => 503
                  | Some _ =>
                      if bool_decide (Z.of_nat (length (query_vector request)) ≠ DIM)
                      then 400 else 500
                  end.
Proof.
  destruct index as [i|]; simpl; [|by intros [= <-]].
  case_bool_decide; simpl; [by intros [= <-]|].
  unfold try_except. destruct (outcome (search_body i request)); simpl; [|done].
  by intros [= <-].
Qed.

(** The response to a search request whose [k] passes validation. *)
Lemma http_search_valid index query_vector k :
  1 ≤ k ≤ 100 →
  http index (PostSearch query_vector k) =
    (index, match outcome (search index (mkSearchRequest query_vector k)) with
            | inl e => RespError e
            | inr body => RespSearch body
            end).
Proof.
  intros Hk. unfold http, serve.
  by rewrite (proj2 (parse_SearchRequest_Some query_vector k _) (conj Hk eq_refl)).
Qed.

Lemma test_health_check_passes index : test_health_check index = (index, inr ()).
Proof. reflexivity. Qed.

Lemma test_stats_outcome index :
  test_stats index =
    (index, match index with
            | Some i => if bool_decide (0 < ntotal i) then inr () else inl AssertionError
            | None => inl AssertionError
            end).
Proof.
  destruct index as [i|]; [|reflexivity].
  unfold test_stats, http, serve, get_stats. destruct (hnsw i); reflexivity.
Qed.

(** X7. [test_search] cannot fail.  A response other than 200 is only
    printed; and a response 200 to [k = 10] carries ten ids and ten
    distances, as the library fills rows of width [k].  So the test passes in
    every state of the service and for every query vector. *)
Theorem test_search_never_fails index query_vector :
  search_shape →
  test_search index query_vector = (index, inr ()).
Proof.
  intros Hshape. unfold test_search.
  rewrite http_search_valid by lia.
  destruct (outcome (search index _)) as [e|body] eqn:Hb.
  - apply search_error_status in Hb. simpl. rewrite Hb.
    destruct index; [case_bool_decide|]; done.
  - destruct (search_result_lengths _ _ _ Hshape Hb) as [Hi Hd].
    simpl in *. by rewrite Hi, Hd.
Qed.

(** X8. [test_invalid_dimension] passes exactly when an index is loaded:
    with none the three-component query is answered 503, not 400, and the
    assertion fails. *)
Theorem test_invalid_dimension_passes_iff index x1 x2 x3 :
  (test_invalid_dimension index x1 x2 x3).2 = inr () ↔ is_Some index.
Proof.
  unfold test_invalid_dimension. rewrite http_search_valid by lia.
  destruct index as [i|]; simpl; split; done.
Qed.

(** X9. The whole suite.  [run_all_tests] ends with all tests passed when
    an index holding at least one vector is loaded, and with a failed test
    otherwise (at [test_stats]); it never meets an unexpected exception,
    and the service state after the run is the state before it. *)
Theorem run_all_tests_report index query_vector x1 x2 x3 :
  search_shape →
  run_all_tests index query_vector x1 x2 x3 =
    (index, match index with
            | Some i => if bool_decide (0 < ntotal i) then AllPassed else TestFailed
            | None => TestFailed
            end).
Proof.
  intros Hshape. unfold run_all_tests.
  rewrite test_health_check_passes, test_stats_outcome.
  destruct index as [i|]; [|done].
  case_bool_decide; [|done].
  assert (Hts : test_search (Some i) query_vector = (Some i, inr ())).
  { unfold test_search. rewrite http_search_valid by lia.
    destruct (outcome (search (Some i) _)) as [e|body] eqn:Hb.
    - apply search_error_status in Hb. simpl. rewrite Hb. by case_bool_decide.
    - destruct (search_result_lengths _ _ _ Hshape Hb) as [Hi Hd].
      simpl in *. by rewrite Hi, Hd. }
  rewrite Hts.
  unfold test_invalid_dimension. rewrite http_search_valid by lia. done.
Qed.

End TestProperties.

(** * Properties of the benchmark *)

Section RecallProperties.
Import Benchmark.
Local Open Scope nat_scope.

Lemma size_list_to_set_le (l : list Z) : size (list_to_set l : gset Z) ≤ length l.
Proof.
  induction l as [|x l IH].
  - by rewrite list_to_set_nil, size_empty.
  - rewrite list_to_set_cons, size_union_alt, size_singleton. simpl.
    assert (Hs : size (list_to_set l ∖ {[x]} : gset Z) ≤ size (list_to_set l : gset Z))
      by (apply subseteq_size; set_solver).
    lia.
Qed.

Lemma size_list_to_set_NoDup (l : list Z) :
  size (list_to_set l : gset Z) = length l ↔ NoDup l.
Proof.
  split; [|apply size_list_to_set].
  induction l as [|x l IH]; [constructor|].
  rewrite list_to_set_cons. simpl. intros Hs.
  destruct (decide (x ∈ l)) as [Hx|Hx].
  - assert (Heq : {[x]} ∪ list_to_set l = (list_to_set l : gset Z)) by set_solver.
    rewrite Heq in Hs. pose proof (size_list_to_set_le l). lia.
  - rewrite size_union, size_singleton in Hs by set_solver.
    apply NoDup_cons. split; [done|]. apply IH. lia.
Qed.

Lemma hits_le_l gt hn : hits gt hn ≤ length gt.
Proof.
  unfold hits. etrans; [|apply size_list_to_set_le].
  apply subseteq_size. set_solver.
Qed.

(** X10. The recall of a query lies between 0 and 1 once the ground-truth
    row has the [K = 10] labels a search for [K] neighbors fills: labels
    are counted once, however often a row repeats them. *)
Theorem recall_between_0_and_1 gt_indices_i hnsw_indices_i :
  length gt_indices_i = Z.to_nat K →
  (0 <= recall gt_indices_i hnsw_indices_i)%Q ∧
  (recall gt_indices_i hnsw_indices_i <= 1)%Q.
Proof.
  intros Hlen. pose proof (hits_le_l gt_indices_i hnsw_indices_i) as Hh.
  rewrite Hlen in Hh. change (Z.to_nat K) with 10 in Hh.
  unfold recall, Qle, K. simpl. lia.
Qed.

(** X11. The recall does not depend on the order of the labels in either
    row, and it is the same when the two rows change places. *)
Theorem recall_order_independent gt gt' hn hn' :
  gt ≡ₚ gt' → hn ≡ₚ hn' →
  recall gt hn = recall gt' hn' ∧ recall gt hn = recall hn gt.
Proof.
  intros Hg Hh. unfold recall, hits. split.
  - by rewrite Hg, Hh.
  - by rewrite (comm_L (∩)).
Qed.

(** X12. A row of [K] labels compared with itself has recall 1 exactly
    when its labels are distinct: a row that repeats a label (the filler
    [-1] of a short result) scores less than 1 against itself. *)
Theorem recall_self_is_1_iff_distinct row :
  length row = Z.to_nat K →
  (recall row row == 1)%Q ↔ NoDup row.
Proof.
  intros Hlen. rewrite <- size_list_to_set_NoDup, Hlen.
  change (Z.to_nat K) with 10.
  unfold recall, hits, Qeq, K. rewrite (idemp_L (∩)). simpl. lia.
Qed.

End RecallProperties.

Section LatencyProperties.
Import Service Benchmark.
Context `{FaissLibrary}.

(** X13. Every request of the benchmark passes the validation of the
    service: its [K = 10] is within the cap and its query rows have the 128
    components the service demands.  Against a loaded index the answer is
    200, or 500 when the library raised; with no index it is 503; it is never
    400 or 422. *)
Theorem benchmark_request_status index (query : list float32) :
  length query = Z.to_nat DIM →
  match index with
  | Some _ => status_of (serve index (PostSearch (to_float <$> query) K)).2 ∈ [200; 500]
  | None => status_of (serve index (PostSearch (to_float <$> query) K)).2 = 503
  end.
Proof.
  intros Hlen.
  assert (Hv := http_search_valid index (to_float <$> query) K
                  ltac:(unfold K; lia)).
  unfold TestApi.http in Hv.
  destruct (serve index _) as [[index' cs] resp]. injection Hv as -> ->.
  destruct index as [i|]; [|done]. simpl.
  unfold search. rewrite bool_decide_eq_false_2.
  - unfold try_except. destruct (outcome (search_body i _)); simpl; set_solver.
  - intros Hne. apply Hne. simpl. rewrite length_fmap, Hlen. done.
Qed.

Lemma latencies_nil index samples :
  latencies index samples = [] ↔
  Forall (λ s, status_of (serve index (PostSearch (to_float <$> s.1) K)).2 ≠ 200)
         samples.
Proof.
  induction samples as [|[query latency] samples IH]; [by split|].
  cbn [latencies]. rewrite Forall_cons. cbn [fst].
  pose proof (serve_state index (PostSearch (to_float <$> query) K)) as Hs.
  destruct (serve index (PostSearch (to_float <$> query) K))
    as [[index' cs] resp] eqn:Hserve.
  cbn [fst snd] in *. subst index'.
  case_bool_decide as H200.
  - split; [done|]. by intros [? _].
  - rewrite IH. split; [by split|by intros [_ ?]].
Qed.

(** X14. The latency stage of the benchmark fails with a
    [StatisticsError] exactly when no request was answered 200: only the
    times of such requests are kept, and the mean of no data point
    raises. *)
Theorem avg_latency_raises_iff index samples :
  (∃ e, avg_latency index samples = inl e) ↔
  Forall (λ s, status_of (serve index (PostSearch (to_float <$> s.1) K)).2 ≠ 200)
         samples.
Proof.
  rewrite <- latencies_nil. unfold avg_latency, mean.
  destruct (latencies index samples); split; try done.
  - by eexists.
  - by intros [? ?].
Qed.

End LatencyProperties.

(** * Properties of the client of the examples *)

Section ClientProperties.
Import Service.
Context `{FaissLibrary}.

(** X15. [example_6_error_handling] never prints that an error should
    have been raised.  The search with 64 components is refused with 400
    and the dimension message when an index is loaded, and with 503
    otherwise; the request with [k = 0] is refused with 422 in every
    state. *)
Theorem example_6_catches_both index invalid_query valid_query :
  length invalid_query = 64%nat →
  Client.example_6_error_handling index invalid_query valid_query =
    (index,
     match index with
     | Some _ =>
         [Client.CaughtExpected 400;
          Client.ErrorMessage (Some "Query vector must have dimension 128, got 64");
          Client.CaughtExpected 422]
     | None =>
         [Client.CaughtExpected 503;
          Client.ErrorMessage (Some "Index not loaded");
          Client.CaughtExpected 422]
     end).
Proof.
  intros Hlen. unfold Client.example_6_error_handling, Client.search.
  rewrite http_search_valid by lia.
  destruct index as [i|]; simpl; rewrite ?Hlen; reflexivity.
Qed.

(** X16. [example_5_normalized_vectors] never runs out of results: when
    the search is answered 200 the ten results of [k = 10] are there and the
    three printed are the first three of the response, in order; otherwise
    the client raised the HTTP error of a status 400, 500 or 503. *)
Theorem example_5_prints_three index query_normalized :
  search_shape →
  match (Client.example_5_normalized_vectors index query_normalized).2 with
  | inl e => status_of (Client.response e) ∈ [400; 500; 503]
  | inr (inr rows) =>
      ∃ body, (TestApi.http index (PostSearch query_normalized 10)).2 = RespSearch body ∧
              rows = take 3 (zip (indices body) (distances body)) ∧
              length rows = 3%nat
  | inr (inl _) => False
  end.
Proof.
  intros Hshape. unfold Client.example_5_normalized_vectors, Client.search.
  rewrite http_search_valid by lia.
  destruct (outcome (search index _)) as [e|body] eqn:Hb.
  - apply search_error_status in Hb. unfold Client.raise_for_status. simpl.
    rewrite Hb. destruct index; [case_bool_decide|]; simpl; set_solver.
  - destruct (search_result_lengths _ _ _ Hshape Hb) as [Hi Hd].
    simpl in Hi, Hd. simpl.
    destruct (indices body) as [|i0 [|i1 [|i2 irest]]] eqn:Ei; try done.
    destruct (distances body) as [|d0 [|d1 [|d2 drest]]] eqn:Ed; try done.
    simpl. exists body. by rewrite Ei, Ed.
Qed.

End ClientProperties.

(** * The failure of a library call *)

Section SearchFailure.
Import Service.
Context `{FaissLibrary}.

(** X17. When [index.search] raises on a query of 128 components, the
    handler answers 500 and passes the text of the exception on in the
    detail, after "Search failed: "; the query had been normalised and the
    search called, and nothing else. *)
Theorem search_failure_detail index request exn :
  Z.of_nat (length (query_vector request)) = DIM →
  index_search index [fvec_renorm_L2 (query_row request)] (k request) = inl exn →
  search (Some index) request =
    mkEff [CallNormalizeL2 [query_row request];
           CallSearch index [fvec_renorm_L2 (query_row request)] (k request)]
          (inl (mkHTTPException 500 ("Search failed: " +:+ exn_msg exn))).
Proof.
  intros Hd Hs. rewrite search_loaded_ok by done. unfold try_except.
  rewrite search_body_outcome, search_body_calls, Hs. reflexivity.
Qed.

End SearchFailure.

(** * The further statements on concrete data *)

Section RunsMore.
Import FlatL2 Service Examples Fixtures.

Lemma service_on_built_artifact_witness :
  @write_index library built2 = @write_index library built2 ∧
  load_index (H:=library) (@write_index library built2) None =
    (Some (set_efSearch 64 built2), inr ()) ∧
  root (load_index (H:=library) (@write_index library built2) None).1
    !! "vectors_indexed" = Some (JInt 2).
Proof.
  apply (service_on_built_artifact (H:=library) randn2 built2
           (@write_index library built2) None); reflexivity.
Defined.

Lemma test_search_never_fails_witness :
  TestApi.test_search (Some index5) (axis 0 3%Q) = (Some index5, inr ()) ∧
  TestApi.test_search (H:=library) None (axis 0 3%Q) = (None, inr ()).
Proof.
  split.
  - apply (test_search_never_fails (H:=library) (Some index5) (axis 0 3%Q)
             flat_search_shape).
  - apply (test_search_never_fails (H:=library) None (axis 0 3%Q) flat_search_shape).
Defined.

Lemma run_all_tests_report_witness :
  TestApi.run_all_tests (Some index5) (axis 0 3%Q) (1 # 10) (2 # 10) (3 # 10)
    = (Some index5, TestApi.AllPassed) ∧
  TestApi.run_all_tests (Some index0) (axis 0 3%Q) (1 # 10) (2 # 10) (3 # 10)
    = (Some index0, TestApi.TestFailed).
Proof.
  split.
  - apply (run_all_tests_report (H:=library) (Some index5) (axis 0 3%Q)
             (1 # 10) (2 # 10) (3 # 10) flat_search_shape).
  - apply (run_all_tests_report (H:=library) (Some index0) (axis 0 3%Q)
             (1 # 10) (2 # 10) (3 # 10) flat_search_shape).
Defined.

Lemma recall_between_0_and_1_witness :
  (0 <= Benchmark.recall padded10 labels10)%Q ∧
  (Benchmark.recall padded10 labels10 <= 1)%Q.
Proof. apply (recall_between_0_and_1 padded10 labels10). reflexivity. Defined.

Lemma recall_order_independent_witness :
  Benchmark.recall labels10 padded10 = Benchmark.recall (reverse labels10) padded10 ∧
  Benchmark.recall labels10 padded10 = Benchmark.recall padded10 labels10.
Proof.
  apply (recall_order_independent labels10 (reverse labels10) padded10 padded10).
  - symmetry. apply reverse_Permutation.
  - reflexivity.
Defined.

Lemma recall_self_is_1_iff_distinct_witness :
  ((Benchmark.recall labels10 labels10 == 1)%Q ↔ NoDup labels10) ∧
  ((Benchmark.recall padded10 padded10 == 1)%Q ↔ NoDup padded10).
Proof.
  split.
  - apply (recall_self_is_1_iff_distinct labels10). reflexivity.
  - apply (recall_self_is_1_iff_distinct padded10). reflexivity.
Defined.

Lemma benchmark_request_status_witness :
  status_of (serve (Some index5)
               (PostSearch (to_float (FaissLibrary:=library) <$> axis 0 3%Q)
                  Benchmark.K)).2 ∈ [200; 500].
Proof.
  apply (benchmark_request_status (H:=library) (Some index5) (axis 0 3%Q)).
  reflexivity.
Defined.

Lemma example_6_catches_both_witness :
  Client.example_6_error_handling (Some index5) query64 (axis 0 3%Q) =
    (Some index5,
     [Client.CaughtExpected 400;
      Client.ErrorMessage (Some "Query vector must have dimension 128, got 64");
      Client.CaughtExpected 422]).
Proof.
  apply (example_6_catches_both (H:=library) (Some index5) query64 (axis 0 3%Q)).
  reflexivity.
Defined.

Lemma example_5_prints_three_witness :
  match (Client.example_5_normalized_vectors (Some index5) (axis 0 1%Q)).2 with
  | inl e => status_of (Client.response e) ∈ [400; 500; 503]
  | inr (inr rows) =>
      ∃ body, (TestApi.http (Some index5) (PostSearch (axis 0 1%Q) 10)).2
                = RespSearch body ∧
              rows = take 3 (zip (indices body) (distances body)) ∧
              length rows = 3%nat
  | inr (inl _) => False
  end.
Proof.
  apply (example_5_prints_three (H:=library) (Some index5) (axis 0 1%Q)
           flat_search_shape).
Defined.

Lemma search_failure_detail_witness :
  search (Some index64) request10 =
    mkEff [CallNormalizeL2 [axis 0 3%Q];
           CallSearch index64 [renorm (axis 0 3%Q)] 10]
          (inl (mkHTTPException 500 "Search failed: ")).
Proof.
  apply (search_failure_detail (H:=library) index64 request10
           (PyException "AssertionError" "")); reflexivity.
Defined.

End RunsMore.

(** * The normalisation of the flat library *)

Section FlatNormalize.
Import FlatL2.





Lemma norm_L2sqr_nonneg (x : list Q) : (0 <= norm_L2sqr x)%Q.
Proof.
  unfold norm_L2sqr. induction x as [|a x IH]; simpl; [done|].
  assert (0 <= (a - 0) * (a - 0))%Q by (unfold Qle, Qmult, Qminus, Qplus, Qopp; simpl; nia).
  replace 0%Q with (0 + 0)%Q by done. by apply Qplus_le_compat.
Qed.



End FlatNormalize.

(** * The result rows of the flat library *)

Section FlatRows.
Import FlatL2.
Local Open Scope nat_scope.







End FlatRows.

(** * The service on the flat library *)

Section FlatService.
Import FlatL2 Service.








End FlatService.

(** * The flat service on concrete data *)

Section FlatRuns.
Import FlatL2 Service Examples Fixtures.




End FlatRuns.
